(** * Fragility models for berth structures subjected to storms

    A shallow embedding of [berth_storm_fragility.py] and the verification of
    its specification.

    Conventions of the embedding.
    - Python floats are read as real numbers: [+], [-], [*], [/] and [**] with
      a literal exponent are the operations of [R], decimal literals are the
      rationals they denote, and [np.exp] is the real exponential.  Rounding,
      overflow and [nan] of binary64 are outside the model.
    - The two dictionaries [IM] and [params] are records that carry every key
      one of the functions reads, numbers for the covariates and strings for
      the categorical selectors, so that a lookup never raises [KeyError].
    - A local variable that is assigned in some branches only is an [option];
      reading it while unassigned raises [UnboundLocalError], as the
      interpreter does. *)

From Stdlib Require Import Reals String Bool Lra.

Open Scope string_scope.
Open Scope R_scope.

(** ** Exceptions and results *)

Inductive exception : Type :=
| UnboundLocalError (name : string).


Inductive result (A : Type) : Type :=
| Ok (a : A)
| Raise (e : exception).

Arguments Ok {A} a.
Arguments Raise {A} e.

Definition bind {A B : Type} (c : result A) (k : A -> result B) : result B :=
  match c with
  | Ok a => k a
  | Raise e => Raise e
  end.

Notation "x <- c ;; k" := (bind c (fun x => k))
  (at level 61, c at next level, right associativity).

(** Reading the local variable [name]. *)
Definition local {A : Type} (name : string) (v : option A) : result A :=
  match v with
  | Some a => Ok a
  | None => Raise (UnboundLocalError name)
  end.

(** The statement [name = c]: the variable is bound once [c] has returned. *)
Definition assign {A : Type} (c : result A) : result (option A) :=
  a <- c ;; Ok (Some a).


(** ** Data model *)

Record IntensityMeasures : Type := {
  Hmax : R;   (* maximum wave height (m) *)
  Zc : R      (* relative surge elevation (m) *)
}.

Record ConnectionParameters : Type := {
  moment : string;     (* 'full' or 'partial' *)
  comp_zone : string;  (* 'in' or 'out' *)
  pos : string;        (* 'internal' or 'seaward' *)
  corr : string;       (* 'uniform' or 'pitting' *)
  bh : R;              (* deck thickness (m) *)
  bl : R;              (* deck length (m) *)
  bw : R;              (* deck width (m) *)
  dse : R;             (* dowel diameter (m) *)
  nb : R;              (* number of dowels *)
  b1 : R;              (* cantilever length (m) *)
  b2 : R;              (* first span length (m) *)
  dp : R;              (* pile diameter (m) *)
  t : R;               (* time (years) *)
  X : R;               (* concrete cover (cm) *)
  depth : R            (* pile height (m) *)
}.

(** ** The fragility functions *)

(** The local [g] once the chain of [if]/[elif] (lines 39-49) has run: unbound when no branch was taken. *)
Definition balomenos_g
    (IM : IntensityMeasures) (params : ConnectionParameters) : option R :=
  let Hmax := IM.(Hmax) in
  let Zc := IM.(Zc) in
  let moment := params.(moment) in
  let comp_zone := params.(comp_zone) in
  if (moment =? "full")%string && (comp_zone =? "in")%string then
    Some (-27.06 + 9.02*Hmax - 1.88*Zc + 0.18*Hmax*Zc - Hmax^2 + 0.04*Hmax^3)
  else if (moment =? "full")%string && (comp_zone =? "out")%string then
    Some (-26.89 + 11.35*Hmax - 2.50*Zc + 0.30*Hmax*Zc - 1.62*Hmax^2 + 0.09*Hmax^3)
  else if (moment =? "partial")%string && (comp_zone =? "in")%string then
    Some (-15.01 + 6.12*Hmax - 2.87*Zc + 0.39*Hmax*Zc - 0.61*Hmax^2 - 0.28*Zc^2 + 0.03*Hmax^3)
  else if (moment =? "partial")%string && (comp_zone =? "out")%string then
    Some (-20.945 + 13.27*Hmax - 4.73*Zc + 0.90*Hmax*Zc - 2.71*Hmax^2 - 0.5*Zc^2 + 0.23*Hmax^3)
  else None.

Definition pile_connection_pf_balomenos
    (IM : IntensityMeasures) (params : ConnectionParameters) : result R :=
  g <- local "g" (balomenos_g IM params) ;;
  let pf := exp g / (1 + exp g) in
  Ok pf.

(** The local [logit] once the chain of [if]/[elif] (lines 94-113) has run. *)
Definition uplift_maniglio_logit
    (IM : IntensityMeasures) (params : ConnectionParameters) : option R :=
  let Hmax := IM.(Hmax) in
  let Zc := IM.(Zc) in
  let bh := params.(bh) in
  let bl := params.(bl) in
  let bw := params.(bw) in
  let dse := params.(dse) in
  let nb := params.(nb) in
  let pos := params.(pos) in
  if (pos =? "internal")%string then
    Some (-14.654 + 6.2338*Hmax - 3.4827*Zc
          - 30.34*bh + 2.6329*bl + 1.8639*bw - 216.59*dse
          - 0.49599*nb + 0.62134*Hmax*Zc - 0.59376*Hmax^2
          - 0.53821*Zc^2 + 13.322*bh^2 - 0.12446*bl^2
          - 0.064453*bw^2 - 0.029003*Hmax^2*Zc
          + 0.097103*Hmax*Zc^2 + 0.021735*Hmax^3
          - 0.0043198*Hmax^2*Zc^2)
  else if (pos =? "seaward")%string then
    Some (-8.8361 + 5.8162*Hmax - 3.8618*Zc
          - 28.851*bh + 2.9167*bl + 1.9991*bw
          - 206.19*dse - 1.4172*nb + 0.78347*Hmax*Zc
          - 0.53459*Hmax^2 - 0.78347*Zc^2 + 11.851*bh^2
          - 0.14821*bl^2 + 0.037589*bw^2 - 0.042766*Hmax^2*Zc
          + 0.14262*Hmax*Zc^2 + 0.019439*Hmax^3
          - 0.065198*Zc^3 - 0.006523*Hmax^2*Zc^2
          + 0.0068831*Hmax*Zc^3)
  else None.

Definition pile_connection_pf_uplift_maniglio
    (IM : IntensityMeasures) (params : ConnectionParameters) : result R :=
  logit <- local "logit" (uplift_maniglio_logit IM params) ;;
  let pf := exp logit / (1 + exp logit) in
  Ok pf.

(** The local [logit] once the chain of [if]/[elif] (lines 167-181) has run. *)
Definition flexural_maniglio_logit
    (IM : IntensityMeasures) (params : ConnectionParameters) : option R :=
  let Hmax := IM.(Hmax) in
  let Zc := IM.(Zc) in
  let b1 := params.(b1) in
  let b2 := params.(b2) in
  let bh := params.(bh) in
  let bw := params.(bw) in
  let dse := params.(dse) in
  let nb := params.(nb) in
  let dp := params.(dp) in
  let t := params.(t) in
  let X := params.(X) in
  let depth := params.(depth) in
  let corr := params.(corr) in
  if (corr =? "uniform")%string then
    Some (7.3471 + 2.791*Hmax - 3.1557*Zc + 0.40065*depth - 1.8352*bh + 0.42456*b1 - 0.27151*b2 + 0.019989*bw
          + 0.75947*dp - 414.19*dse - 0.70704*nb + 0.011253*t + 0.42697*Hmax*Zc + 0.043476*Hmax*b2
          + 0.022533*Hmax*bw - 0.035697*Zc*depth + 27.799*Zc*dse + 0.03824*Zc*nb - 0.023764*nb*depth - 0.094056*b1*bw
          + 14.193*bw*dse + 0.021738*bw*nb - 0.38302*Hmax^2 + 0.22222*Zc^2 - 0.023178*bw^2 + 0.021518*nb^2
          - 0.024721*Hmax^2*Zc + 0.032323*Hmax*Zc^2 + 0.01736*Hmax^3)
  else if (corr =? "pitting")%string then
    Some (16.653 + 1.4314*Hmax - 2.6166*Zc + 0.11173*depth - 1.58342*bh + 0.29456*b1 - 0.2446*b2 + 0.29089*bw
          - 416.49*dse - 0.55746*nb - 0.81204*X + 0.099918*t + 0.14032*Hmax*Zc + 0.032531*Hmax*b2 + 0.031734*Hmax*bw
          - 0.030395*Zc*depth + 0.026797*Zc*b2 + 32.384*Zc*dse + 0.03363*Zc*nb - 0.0027384*Zc*t + 14.083*bw*dse
          + 0.024709*bw*nb - 0.0099845*X*t - 0.10253*Hmax^2 + 0.14287*Zc^2 - 0.02174*bw^2 + 0.047843*X^2 + 0.00038818*t^2
          + 0.019461*Hmax*Zc^2)
  else None.

Definition pile_connection_pf_flexural_maniglio
    (IM : IntensityMeasures) (params : ConnectionParameters) : result R :=
  logit <- local "logit" (flexural_maniglio_logit IM params) ;;
  let pf := exp logit / (1 + exp logit) in
  Ok pf.

Definition pile_connection_uplift_pf
    (IM : IntensityMeasures) (params : ConnectionParameters) (model : string)
    : result R :=
  pf <- (if (model =? "balomenos")%string then
           assign (pile_connection_pf_flexural_maniglio IM params)
         else if (model =? "maniglio")%string then
           assign (pile_connection_pf_flexural_maniglio IM params)
         else Ok None) ;;
  local "pf" pf.

(** The keyword argument [model] left out: its default is ['maniglio']. *)
Definition pile_connection_uplift_pf_default
    (IM : IntensityMeasures) (params : ConnectionParameters) : result R :=
  pile_connection_uplift_pf IM params "maniglio".

(** ** The legal values of the selectors, as the docstrings enumerate them *)





Definition valid_model (s : string) : bool :=
  ((s =? "balomenos") || (s =? "maniglio"))%string.

(** ** The logistic transform *)

Definition logistic (x : R) : R := exp x / (1 + exp x).

(** ** The published regression surfaces of the Balomenos model

    The specification gives, for each legal pair of selectors, one set of
    coefficients of a cubic polynomial in [Hmax] and [Zc].  These definitions
    follow the specification; the theorems compare them with [balomenos_g]. *)







(** ** Records that differ in one key *)

Definition set_moment (params : ConnectionParameters) (v : string) :=
  {| moment := v; comp_zone := params.(comp_zone); pos := params.(pos);
     corr := params.(corr); bh := params.(bh); bl := params.(bl);
     bw := params.(bw); dse := params.(dse); nb := params.(nb);
     b1 := params.(b1); b2 := params.(b2); dp := params.(dp);
     t := params.(t); X := params.(X); depth := params.(depth) |}.

Definition set_comp_zone (params : ConnectionParameters) (v : string) :=
  {| moment := params.(moment); comp_zone := v; pos := params.(pos);
     corr := params.(corr); bh := params.(bh); bl := params.(bl);
     bw := params.(bw); dse := params.(dse); nb := params.(nb);
     b1 := params.(b1); b2 := params.(b2); dp := params.(dp);
     t := params.(t); X := params.(X); depth := params.(depth) |}.


Definition set_corr (params : ConnectionParameters) (v : string) :=
  {| moment := params.(moment); comp_zone := params.(comp_zone);
     pos := params.(pos); corr := v; bh := params.(bh); bl := params.(bl);
     bw := params.(bw); dse := params.(dse); nb := params.(nb);
     b1 := params.(b1); b2 := params.(b2); dp := params.(dp);
     t := params.(t); X := params.(X); depth := params.(depth) |}.



Definition set_dp (params : ConnectionParameters) (v : R) :=
  {| moment := params.(moment); comp_zone := params.(comp_zone);
     pos := params.(pos); corr := params.(corr); bh := params.(bh);
     bl := params.(bl); bw := params.(bw); dse := params.(dse);
     nb := params.(nb); b1 := params.(b1); b2 := params.(b2); dp := v;
     t := params.(t); X := params.(X); depth := params.(depth) |}.

Definition set_X (params : ConnectionParameters) (v : R) :=
  {| moment := params.(moment); comp_zone := params.(comp_zone);
     pos := params.(pos); corr := params.(corr); bh := params.(bh);
     bl := params.(bl); bw := params.(bw); dse := params.(dse);
     nb := params.(nb); b1 := params.(b1); b2 := params.(b2);
     dp := params.(dp); t := params.(t); X := v; depth := params.(depth) |}.

(** ** The keys each function reads from [params] *)

Definition same_keys_balomenos (p q : ConnectionParameters) : Prop :=
  p.(moment) = q.(moment) /\ p.(comp_zone) = q.(comp_zone).

Definition same_keys_uplift_maniglio (p q : ConnectionParameters) : Prop :=
  p.(bh) = q.(bh) /\ p.(bl) = q.(bl) /\ p.(bw) = q.(bw) /\
  p.(dse) = q.(dse) /\ p.(nb) = q.(nb) /\ p.(pos) = q.(pos).

Definition same_keys_flexural_maniglio (p q : ConnectionParameters) : Prop :=
  p.(b1) = q.(b1) /\ p.(b2) = q.(b2) /\ p.(bh) = q.(bh) /\
  p.(bw) = q.(bw) /\ p.(dse) = q.(dse) /\ p.(nb) = q.(nb) /\
  p.(dp) = q.(dp) /\ p.(t) = q.(t) /\ p.(X) = q.(X) /\
  p.(depth) = q.(depth) /\ p.(corr) = q.(corr).

(** ** Sample inputs *)

Definition IM_calm : IntensityMeasures := {| Hmax := 0; Zc := 0 |}.
Definition IM_storm : IntensityMeasures := {| Hmax := 4; Zc := 0 |}.

Definition wharf : ConnectionParameters :=
  {| moment := "full"; comp_zone := "in"; pos := "internal";
     corr := "uniform"; bh := 0.5; bl := 6; bw := 6; dse := 0.025; nb := 4;
     b1 := 2; b2 := 6; dp := 0.6; t := 25; X := 5; depth := 10 |}.

(** All covariates at zero. *)
Definition bare : ConnectionParameters :=
  {| moment := "full"; comp_zone := "in"; pos := "internal";
     corr := "uniform"; bh := 0; bl := 0; bw := 0; dse := 0; nb := 0;
     b1 := 0; b2 := 0; dp := 0; t := 0; X := 0; depth := 0 |}.

(** ** Further records that differ in one key *)



(** ** The functions on dictionaries

    The same four functions, one level closer to the interpreter: [IM] and
    [params] are dictionaries from keys to numbers or strings, a subscript
    [d[key]] raises [KeyError] on a missing key, [==] between a number and a
    string is false, and an arithmetic operation raises [TypeError] on a string
    operand.  Every sum, difference and product of the source has a float as
    its left operand and every power an integer literal as its exponent, so a
    string operand is never a legal one; numbers stay reals. *)

Module Dyn.

Inductive value : Type :=
| Num (r : R)
| Str (s : string).

(** A dictionary, looked up from the head: the first binding of a key is the
    one in force. *)
Definition dict : Type := list (string * value).

(** [UnboundLocalError] is a subclass of [NameError]. *)
Inductive error : Type :=
| KeyError (key : string)
| TypeError
| NameError (e : exception).

Inductive outcome (A : Type) : Type :=
| Return (a : A)
| Throw (e : error).

Arguments Return {A} a.
Arguments Throw {A} e.

Definition obind {A B : Type} (c : outcome A) (k : A -> outcome B) : outcome B :=
  match c with
  | Return a => k a
  | Throw e => Throw e
  end.

Declare Scope dyn_scope.
Delimit Scope dyn_scope with dyn.

Notation "x <- c ;; k" := (obind c (fun x => k))
  (at level 61, c at next level, right associativity) : dyn_scope.

Definition lift {A : Type} (c : result A) : outcome A :=
  match c with
  | Ok a => Return a
  | Raise e => Throw (NameError e)
  end.

Fixpoint lookup (d : dict) (key : string) : option value :=
  match d with
  | nil => None
  | ((k, v) :: d')%list => if (k =? key)%string then Some v else lookup d' key
  end.

(** The subscript [d[key]]. *)
Definition getitem (d : dict) (key : string) : outcome value :=
  match lookup d key with
  | Some v => Return v
  | None => Throw (KeyError key)
  end.

(** The comparison [v == 's'] with a string literal. *)
Definition eq_str (v : value) (s : string) : bool :=
  match v with
  | Str s' => (s' =? s)%string
  | Num _ => false
  end.

(** A float literal, and a variable used as an operand. *)
Definition lit (r : R) : outcome R := Return r.

Definition num (v : value) : outcome R :=
  match v with
  | Num r => Return r
  | Str _ => Throw TypeError
  end.

Definition binop (f : R -> R -> R) (x y : outcome R) : outcome R :=
  (a <- x ;; b <- y ;; Return (f a b))%dyn.

Definition py_add : outcome R -> outcome R -> outcome R := binop Rplus.
Definition py_sub : outcome R -> outcome R -> outcome R := binop Rminus.
Definition py_mul : outcome R -> outcome R -> outcome R := binop Rmult.

Definition py_pow (x : outcome R) (n : nat) : outcome R :=
  (a <- x ;; Return (a ^ n))%dyn.

Coercion lit : R >-> outcome.
Coercion num : value >-> outcome.

Declare Scope py_scope.
Delimit Scope py_scope with py.

Notation "x + y" := (py_add x y) : py_scope.
Notation "x - y" := (py_sub x y) : py_scope.
Notation "x * y" := (py_mul x y) : py_scope.
Notation "x ^ n" := (py_pow x n) : py_scope.

Arguments py_add (x y)%_py.
Arguments py_sub (x y)%_py.
Arguments py_mul (x y)%_py.
Arguments py_pow x%_py n%_nat.

(** The statement [name = c] and the read of the local [name]. *)
Definition assigned {A : Type} (c : outcome A) : outcome (option A) :=
  (a <- c ;; Return (Some a))%dyn.

Definition read_local {A : Type} (name : string) (v : option A) : outcome A :=
  lift (local name v).

(** The local [g] after the chain of [if]/[elif] of lines 39-49. *)
Definition balomenos_g (Hmax Zc moment comp_zone : value)
    : outcome (option R) :=
  if eq_str moment "full" && eq_str comp_zone "in" then
    assigned
    (-27.06 + 9.02*Hmax - 1.88*Zc + 0.18*Hmax*Zc - Hmax^2 + 0.04*Hmax^3)%py
  else if eq_str moment "full" && eq_str comp_zone "out" then
    assigned
    (-26.89 + 11.35*Hmax - 2.50*Zc + 0.30*Hmax*Zc - 1.62*Hmax^2 + 0.09*Hmax^3)%py
  else if eq_str moment "partial" && eq_str comp_zone "in" then
    assigned
    (-15.01 + 6.12*Hmax - 2.87*Zc + 0.39*Hmax*Zc - 0.61*Hmax^2 - 0.28*Zc^2 + 0.03*Hmax^3)%py
  else if eq_str moment "partial" && eq_str comp_zone "out" then
    assigned
    (-20.945 + 13.27*Hmax - 4.73*Zc + 0.90*Hmax*Zc - 2.71*Hmax^2 - 0.5*Zc^2 + 0.23*Hmax^3)%py
  else Return None.

Definition pile_connection_pf_balomenos (IM params : dict) : outcome R :=
  (Hmax <- getitem IM "Hmax" ;;
   Zc <- getitem IM "Zc" ;;
   moment <- getitem params "moment" ;;
   comp_zone <- getitem params "comp_zone" ;;
   g <- balomenos_g Hmax Zc moment comp_zone ;;
   g <- read_local "g" g ;;
   let pf := exp g / (1 + exp g) in
   Return pf)%dyn.

(** The local [logit] after the chain of [if]/[elif] of lines 94-113. *)
Definition uplift_maniglio_logit (Hmax Zc bh bl bw dse nb pos : value)
    : outcome (option R) :=
  if eq_str pos "internal" then
    assigned
    (-14.654 + 6.2338*Hmax - 3.4827*Zc
     - 30.34*bh + 2.6329*bl + 1.8639*bw - 216.59*dse
     - 0.49599*nb + 0.62134*Hmax*Zc - 0.59376*Hmax^2
     - 0.53821*Zc^2 + 13.322*bh^2 - 0.12446*bl^2
     - 0.064453*bw^2 - 0.029003*Hmax^2*Zc
     + 0.097103*Hmax*Zc^2 + 0.021735*Hmax^3
     - 0.0043198*Hmax^2*Zc^2)%py
  else if eq_str pos "seaward" then
    assigned
    (-8.8361 + 5.8162*Hmax - 3.8618*Zc
     - 28.851*bh + 2.9167*bl + 1.9991*bw
     - 206.19*dse - 1.4172*nb + 0.78347*Hmax*Zc
     - 0.53459*Hmax^2 - 0.78347*Zc^2 + 11.851*bh^2
     - 0.14821*bl^2 + 0.037589*bw^2 - 0.042766*Hmax^2*Zc
     + 0.14262*Hmax*Zc^2 + 0.019439*Hmax^3
     - 0.065198*Zc^3 - 0.006523*Hmax^2*Zc^2
     + 0.0068831*Hmax*Zc^3)%py
  else Return None.

Definition pile_connection_pf_uplift_maniglio (IM params : dict) : outcome R :=
  (Hmax <- getitem IM "Hmax" ;;
   Zc <- getitem IM "Zc" ;;
   bh <- getitem params "bh" ;;
   bl <- getitem params "bl" ;;
   bw <- getitem params "bw" ;;
   dse <- getitem params "dse" ;;
   nb <- getitem params "nb" ;;
   pos <- getitem params "pos" ;;
   logit <- uplift_maniglio_logit Hmax Zc bh bl bw dse nb pos ;;
   logit <- read_local "logit" logit ;;
   let pf := exp logit / (1 + exp logit) in
   Return pf)%dyn.

(** The local [logit] after the chain of [if]/[elif] of lines 167-181. *)
Definition flexural_maniglio_logit
    (Hmax Zc b1 b2 bh bw dse nb dp t X depth corr : value)
    : outcome (option R) :=
  if eq_str corr "uniform" then
    assigned
    (7.3471 + 2.791*Hmax - 3.1557*Zc + 0.40065*depth - 1.8352*bh + 0.42456*b1 - 0.27151*b2 + 0.019989*bw
     + 0.75947*dp - 414.19*dse - 0.70704*nb + 0.011253*t + 0.42697*Hmax*Zc + 0.043476*Hmax*b2
     + 0.022533*Hmax*bw - 0.035697*Zc*depth + 27.799*Zc*dse + 0.03824*Zc*nb - 0.023764*nb*depth - 0.094056*b1*bw
     + 14.193*bw*dse + 0.021738*bw*nb - 0.38302*Hmax^2 + 0.22222*Zc^2 - 0.023178*bw^2 + 0.021518*nb^2
     - 0.024721*Hmax^2*Zc + 0.032323*Hmax*Zc^2 + 0.01736*Hmax^3)%py
  else if eq_str corr "pitting" then
    assigned
    (16.653 + 1.4314*Hmax - 2.6166*Zc + 0.11173*depth - 1.58342*bh + 0.29456*b1 - 0.2446*b2 + 0.29089*bw
     - 416.49*dse - 0.55746*nb - 0.81204*X + 0.099918*t + 0.14032*Hmax*Zc + 0.032531*Hmax*b2 + 0.031734*Hmax*bw
     - 0.030395*Zc*depth + 0.026797*Zc*b2 + 32.384*Zc*dse + 0.03363*Zc*nb - 0.0027384*Zc*t + 14.083*bw*dse
     + 0.024709*bw*nb - 0.0099845*X*t - 0.10253*Hmax^2 + 0.14287*Zc^2 - 0.02174*bw^2 + 0.047843*X^2 + 0.00038818*t^2
     + 0.019461*Hmax*Zc^2)%py
  else Return None.

Definition pile_connection_pf_flexural_maniglio (IM params : dict) : outcome R :=
  (Hmax <- getitem IM "Hmax" ;;
   Zc <- getitem IM "Zc" ;;
   b1 <- getitem params "b1" ;;
   b2 <- getitem params "b2" ;;
   bh <- getitem params "bh" ;;
   bw <- getitem params "bw" ;;
   dse <- getitem params "dse" ;;
   nb <- getitem params "nb" ;;
   dp <- getitem params "dp" ;;
   t <- getitem params "t" ;;
   X <- getitem params "X" ;;
   depth <- getitem params "depth" ;;
   corr <- getitem params "corr" ;;
   logit <- flexural_maniglio_logit
              Hmax Zc b1 b2 bh bw dse nb dp t X depth corr ;;
   logit <- read_local "logit" logit ;;
   let pf := exp logit / (1 + exp logit) in
   Return pf)%dyn.

Definition pile_connection_uplift_pf (IM params : dict) (model : value)
    : outcome R :=
  (pf <- (if eq_str model "balomenos" then
            assigned (pile_connection_pf_flexural_maniglio IM params)
          else if eq_str model "maniglio" then
            assigned (pile_connection_pf_flexural_maniglio IM params)
          else Return None) ;;
   read_local "pf" pf)%dyn.

(** The keys each function reads, in the order it reads them. *)
Definition keys_IM : list string := ("Hmax" :: "Zc" :: nil)%list.

Definition keys_balomenos : list string :=
  ("moment" :: "comp_zone" :: nil)%list.

Definition keys_uplift_maniglio : list string :=
  ("bh" :: "bl" :: "bw" :: "dse" :: "nb" :: "pos" :: nil)%list.

Definition keys_flexural_maniglio : list string :=
  ("b1" :: "b2" :: "bh" :: "bw" :: "dse" :: "nb" :: "dp" :: "t" :: "X"
   :: "depth" :: "corr" :: nil)%list.

(** The first key of [keys] that [d] does not bind. *)
Fixpoint first_missing (keys : list string) (d : dict) : option string :=
  match keys with
  | nil => None
  | (k :: keys')%list =>
      match lookup d k with
      | Some _ => first_missing keys' d
      | None => Some k
      end
  end.

(** The first key a call misses: [IM] is read before [params]. *)
Definition missing_key (keys : list string) (IM params : dict) : option string :=
  match first_missing keys_IM IM with
  | Some k => Some k
  | None => first_missing keys params
  end.

(** [v] is one of the two legal values [a], [b] of a selector. *)
Definition legal (v : value) (a b : string) : bool :=
  eq_str v a || eq_str v b.

(** The selector bound to [key], when the key is bound. *)
Definition legal_at (d : dict) (key a b : string) : bool :=
  match lookup d key with
  | Some v => legal v a b
  | None => false
  end.






(** The outcomes of a float expression: a float, or [TypeError]. *)
Definition fails (c : outcome R) : Prop := c = Throw TypeError.

Definition arith (c : outcome R) : Prop :=
  fails c \/ exists r : R, c = Return r.

(** The dictionaries that hold the fields of a record. *)
Definition dict_of_IM (IM : IntensityMeasures) : dict :=
  (("Hmax", Num IM.(Hmax)) :: ("Zc", Num IM.(Zc)) :: nil)%list.




End Dyn.

(** * Verification *)

(** ** Facts on the logistic transform *)
Lemma one_plus_exp_pos (x : R) : 0 < 1 + exp x.
Proof. pose proof (exp_pos x). lra. Qed.



(** [logistic x = 1 - 1 / (1 + exp x)]. *)
Lemma logistic_compl (x : R) : logistic x = 1 - / (1 + exp x).
Proof.
  unfold logistic. pose proof (one_plus_exp_pos x). field. lra.
Qed.

Lemma logistic_increasing (x y : R) : x < y -> logistic x < logistic y.
Proof.
  intros Hxy. rewrite !logistic_compl.
  pose proof (exp_increasing x y Hxy) as He.
  pose proof (one_plus_exp_pos x) as Hx.
  assert (/ (1 + exp y) < / (1 + exp x)).
  { apply Rinv_lt_contravar; [|lra].
    apply Rmult_lt_0_compat; [exact Hx|apply one_plus_exp_pos]. }
  lra.
Qed.

Lemma logistic_inj (x y : R) : logistic x = logistic y -> x = y.
Proof.
  intros Heq.
  destruct (Rtotal_order x y) as [Hlt|[Heq'|Hgt]]; [|exact Heq'|].
  - apply logistic_increasing in Hlt. lra.
  - apply logistic_increasing in Hgt. lra.
Qed.

(** ** Each function is the logistic transform of its logit *)

Lemma balomenos_unfold (IM : IntensityMeasures) (params : ConnectionParameters) :
  pile_connection_pf_balomenos IM params =
  match balomenos_g IM params with
  | Some g => Ok (logistic g)
  | None => Raise (UnboundLocalError "g")
  end.
Proof.
  unfold pile_connection_pf_balomenos.
  destruct (balomenos_g IM params); reflexivity.
Qed.

Lemma uplift_maniglio_unfold (IM : IntensityMeasures) (params : ConnectionParameters) :
  pile_connection_pf_uplift_maniglio IM params =
  match uplift_maniglio_logit IM params with
  | Some logit => Ok (logistic logit)
  | None => Raise (UnboundLocalError "logit")
  end.
Proof.
  unfold pile_connection_pf_uplift_maniglio.
  destruct (uplift_maniglio_logit IM params); reflexivity.
Qed.

Lemma flexural_maniglio_unfold (IM : IntensityMeasures) (params : ConnectionParameters) :
  pile_connection_pf_flexural_maniglio IM params =
  match flexural_maniglio_logit IM params with
  | Some logit => Ok (logistic logit)
  | None => Raise (UnboundLocalError "logit")
  end.
Proof.
  unfold pile_connection_pf_flexural_maniglio.
  destruct (flexural_maniglio_logit IM params); reflexivity.
Qed.

(** The dispatcher with a legal model name is the flexural function. *)
Lemma uplift_pf_valid_model (IM : IntensityMeasures) (params : ConnectionParameters)
    (model : string) :
  valid_model model = true ->
  pile_connection_uplift_pf IM params model =
  pile_connection_pf_flexural_maniglio IM params.
Proof.
  unfold valid_model, pile_connection_uplift_pf, assign. intros Hm.
  destruct (model =? "balomenos")%string.
  - destruct (pile_connection_pf_flexural_maniglio IM params); reflexivity.
  - simpl in Hm. rewrite Hm.
    destruct (pile_connection_pf_flexural_maniglio IM params); reflexivity.
Qed.








(** ** The dispatcher *)

Lemma flexural_calm_bare :
  pile_connection_pf_flexural_maniglio IM_calm bare = Ok (logistic 7.3471).
Proof.
  rewrite flexural_maniglio_unfold. cbn. do 2 f_equal. lra.
Qed.

Lemma balomenos_calm_bare :
  pile_connection_pf_balomenos IM_calm bare = Ok (logistic (-27.06)).
Proof.
  rewrite balomenos_unfold. cbn. do 2 f_equal. lra.
Qed.

Lemma uplift_maniglio_calm_bare :
  pile_connection_pf_uplift_maniglio IM_calm bare = Ok (logistic (-14.654)).
Proof.
  rewrite uplift_maniglio_unfold. cbn. do 2 f_equal. lra.
Qed.

Lemma Ok_logistic_neq (x y : R) : x <> y -> Ok (logistic x) <> Ok (logistic y).
Proof.
  intros Hxy Heq. apply Hxy, logistic_inj. congruence.
Qed.

(** C1.  For every [IM] and [params], the dispatcher called with model
    ['maniglio'], with model ['balomenos'] and with the default model returns
    what [pile_connection_pf_flexural_maniglio] returns on the same arguments
    (the same probability, or the same exception when [corr] is not legal).  It
    routes to neither uplift function: with the waves at rest and every
    covariate at zero its result differs from the one of
    [pile_connection_pf_balomenos] and from the one of
    [pile_connection_pf_uplift_maniglio], for both model names. *)
Theorem uplift_pf_routes_to_flexural_maniglio :
  (forall IM params,
      pile_connection_uplift_pf IM params "maniglio"
      = pile_connection_pf_flexural_maniglio IM params /\
      pile_connection_uplift_pf IM params "balomenos"
      = pile_connection_pf_flexural_maniglio IM params /\
      pile_connection_uplift_pf_default IM params
      = pile_connection_pf_flexural_maniglio IM params) /\
  (pile_connection_uplift_pf IM_calm bare "balomenos"
   <> pile_connection_pf_balomenos IM_calm bare /\
   pile_connection_uplift_pf IM_calm bare "balomenos"
   <> pile_connection_pf_uplift_maniglio IM_calm bare /\
   pile_connection_uplift_pf IM_calm bare "maniglio"
   <> pile_connection_pf_balomenos IM_calm bare /\
   pile_connection_uplift_pf IM_calm bare "maniglio"
   <> pile_connection_pf_uplift_maniglio IM_calm bare).
Proof.
  split.
  - intros IM params. unfold pile_connection_uplift_pf_default.
    repeat split; apply uplift_pf_valid_model; reflexivity.
  - rewrite !uplift_pf_valid_model by reflexivity.
    rewrite flexural_calm_bare, balomenos_calm_bare, uplift_maniglio_calm_bare.
    repeat split; apply Ok_logistic_neq; lra.
Qed.

(** ** The Balomenos model against its published coefficients *)




(** ** Range of the three models *)




(** ** The Balomenos model at sample points *)

Lemma balomenos_full_in (IM : IntensityMeasures) (params : ConnectionParameters) :
  params.(moment) = "full" -> params.(comp_zone) = "in" ->
  balomenos_g IM params
  = Some (-27.06 + 9.02*IM.(Hmax) - 1.88*IM.(Zc) + 0.18*IM.(Hmax)*IM.(Zc)
          - IM.(Hmax)^2 + 0.04*IM.(Hmax)^3).
Proof.
  intros Hm Hz. unfold balomenos_g. rewrite Hm, Hz. reflexivity.
Qed.

(** C6.  With [Hmax = 0] and [Zc = 0] the Balomenos model returns the
    logistic transform of the intercept of the branch taken: -27.06 for
    full/in, -26.89 for full/out, -15.01 for partial/in and -20.945 for
    partial/out. *)
Theorem balomenos_at_origin :
  forall params : ConnectionParameters,
    (params.(moment) = "full" -> params.(comp_zone) = "in" ->
     pile_connection_pf_balomenos {| Hmax := 0; Zc := 0 |} params
     = Ok (exp (-27.06) / (1 + exp (-27.06)))) /\
    (params.(moment) = "full" -> params.(comp_zone) = "out" ->
     pile_connection_pf_balomenos {| Hmax := 0; Zc := 0 |} params
     = Ok (exp (-26.89) / (1 + exp (-26.89)))) /\
    (params.(moment) = "partial" -> params.(comp_zone) = "in" ->
     pile_connection_pf_balomenos {| Hmax := 0; Zc := 0 |} params
     = Ok (exp (-15.01) / (1 + exp (-15.01)))) /\
    (params.(moment) = "partial" -> params.(comp_zone) = "out" ->
     pile_connection_pf_balomenos {| Hmax := 0; Zc := 0 |} params
     = Ok (exp (-20.945) / (1 + exp (-20.945)))).
Proof.
  intros params.
  repeat split; intros Hm Hz; rewrite balomenos_unfold;
    unfold balomenos_g; rewrite Hm, Hz; cbn; unfold logistic;
    match goal with
    | |- Ok (exp ?a / _) = Ok (exp ?b / _) => replace a with b by lra
    end; reflexivity.
Qed.

Lemma balomenos_at_origin_witness :
  pile_connection_pf_balomenos {| Hmax := 0; Zc := 0 |} wharf
  = Ok (exp (-27.06) / (1 + exp (-27.06))) /\
  pile_connection_pf_balomenos {| Hmax := 0; Zc := 0 |}
    (set_comp_zone wharf "out")
  = Ok (exp (-26.89) / (1 + exp (-26.89))) /\
  pile_connection_pf_balomenos {| Hmax := 0; Zc := 0 |}
    (set_moment wharf "partial")
  = Ok (exp (-15.01) / (1 + exp (-15.01))) /\
  pile_connection_pf_balomenos {| Hmax := 0; Zc := 0 |}
    (set_comp_zone (set_moment wharf "partial") "out")
  = Ok (exp (-20.945) / (1 + exp (-20.945))).
Proof.
  destruct (balomenos_at_origin wharf) as (H1 & _).
  destruct (balomenos_at_origin (set_comp_zone wharf "out")) as (_ & H2 & _).
  destruct (balomenos_at_origin (set_moment wharf "partial")) as (_ & _ & H3 & _).
  destruct (balomenos_at_origin (set_comp_zone (set_moment wharf "partial") "out"))
    as (_ & _ & _ & H4).
  split; [|split; [|split]];
    [apply H1|apply H2|apply H3|apply H4]; reflexivity.
Defined.

(** C7.  In the full/in branch with [Zc = 0] the Balomenos model returns a
    strictly greater probability at [Hmax = 3] than at [Hmax = 0]. *)
Theorem balomenos_full_in_higher_at_3 :
  forall params : ConnectionParameters,
    params.(moment) = "full" -> params.(comp_zone) = "in" ->
    exists pf3 pf0 : R,
      pile_connection_pf_balomenos {| Hmax := 3; Zc := 0 |} params = Ok pf3 /\
      pile_connection_pf_balomenos {| Hmax := 0; Zc := 0 |} params = Ok pf0 /\
      pf3 > pf0.
Proof.
  intros params Hm Hz.
  rewrite !balomenos_unfold, !(balomenos_full_in _ params Hm Hz). cbn.
  eexists. eexists. split; [reflexivity|]. split; [reflexivity|].
  apply Rlt_gt, logistic_increasing. lra.
Qed.

Lemma balomenos_full_in_higher_at_3_witness :
  exists pf3 pf0 : R,
    pile_connection_pf_balomenos {| Hmax := 3; Zc := 0 |} wharf = Ok pf3 /\
    pile_connection_pf_balomenos {| Hmax := 0; Zc := 0 |} wharf = Ok pf0 /\
    pf3 > pf0.
Proof.
  apply (balomenos_full_in_higher_at_3 wharf); reflexivity.
Defined.

(** ** The concrete scenario at [Hmax = 4], [Zc = 0]

    The exponential is bounded by repeated squaring from [1 + x <= exp x]:
    [exp (2 x) = (exp x)^2 >= a^2 >= b] whenever [0 <= a <= exp x] and
    [b <= a^2]. *)

Lemma exp_double_lower (x a b y : R) :
  a <= exp x -> 0 <= a -> b <= a * a -> y = 2 * x -> b <= exp y.
Proof.
  intros Ha H0 Hb ->.
  replace (2 * x) with (x + x) by lra. rewrite exp_plus.
  apply Rle_trans with (a * a); [exact Hb|].
  apply Rmult_le_compat; assumption.
Qed.

Lemma exp_neg_442_lower : 0.01202705827984 <= exp (-4.42).
Proof.
  assert (L0 : 0.999730224609375 <= exp (-0.000269775390625)).
  { pose proof (exp_ineq1_le (-0.000269775390625)). lra. }
  assert (L1 : 0.99946052199751 <= exp (-0.00053955078125))
    by (apply (exp_double_lower _ _ _ _ L0); lra).
  assert (L2 : 0.99892133503153 <= exp (-0.0010791015625))
    by (apply (exp_double_lower _ _ _ _ L1); lra).
  assert (L3 : 0.99784383358117 <= exp (-0.002158203125))
    by (apply (exp_double_lower _ _ _ _ L2); lra).
  assert (L4 : 0.99569231621596 <= exp (-0.00431640625))
    by (apply (exp_double_lower _ _ _ _ L3); lra).
  assert (L5 : 0.9914031885715 <= exp (-0.0086328125))
    by (apply (exp_double_lower _ _ _ _ L4); lra).
  assert (L6 : 0.98288028230973 <= exp (-0.017265625))
    by (apply (exp_double_lower _ _ _ _ L5); lra).
  assert (L7 : 0.96605364935325 <= exp (-0.03453125))
    by (apply (exp_double_lower _ _ _ _ L6); lra).
  assert (L8 : 0.93325965342873 <= exp (-0.0690625))
    by (apply (exp_double_lower _ _ _ _ L7); lra).
  assert (L9 : 0.87097358071791 <= exp (-0.138125))
    by (apply (exp_double_lower _ _ _ _ L8); lra).
  assert (L10 : 0.75859497830857 <= exp (-0.27625))
    by (apply (exp_double_lower _ _ _ _ L9); lra).
  assert (L11 : 0.57546634111497 <= exp (-0.5525))
    by (apply (exp_double_lower _ _ _ _ L10); lra).
  assert (L12 : 0.33116150975625 <= exp (-1.105))
    by (apply (exp_double_lower _ _ _ _ L11); lra).
  assert (L13 : 0.10966794554403 <= exp (-2.21))
    by (apply (exp_double_lower _ _ _ _ L12); lra).
  assert (L14 : 0.01202705827984 <= exp (-4.42))
    by (apply (exp_double_lower _ _ _ _ L13); lra).
  exact L14.
Qed.

Lemma exp_442_lower : 83.04676671692668 <= exp 4.42.
Proof.
  assert (U0 : 1.000269775390625 <= exp (0.000269775390625)).
  { pose proof (exp_ineq1_le (0.000269775390625)). lra. }
  assert (U1 : 1.00053962356001 <= exp (0.00053955078125))
    by (apply (exp_double_lower _ _ _ _ U0); lra).
  assert (U2 : 1.0010795383136 <= exp (0.0010791015625))
    by (apply (exp_double_lower _ _ _ _ U1); lra).
  assert (U3 : 1.00216024203017 <= exp (0.002158203125))
    by (apply (exp_double_lower _ _ _ _ U2); lra).
  assert (U4 : 1.00432515070596 <= exp (0.00431640625))
    by (apply (exp_double_lower _ _ _ _ U3); lra).
  assert (U5 : 1.00866900834054 <= exp (0.0086328125))
    by (apply (exp_double_lower _ _ _ _ U4); lra).
  assert (U6 : 1.01741316838668 <= exp (0.017265625))
    by (apply (exp_double_lower _ _ _ _ U5); lra).
  assert (U7 : 1.03512955520662 <= exp (0.03453125))
    by (apply (exp_double_lower _ _ _ _ U6); lra).
  assert (U8 : 1.07149319606225 <= exp (0.0690625))
    by (apply (exp_double_lower _ _ _ _ U7); lra).
  assert (U9 : 1.14809766920769 <= exp (0.138125))
    by (apply (exp_double_lower _ _ _ _ U8); lra).
  assert (U10 : 1.31812825804013 <= exp (0.27625))
    by (apply (exp_double_lower _ _ _ _ U9); lra).
  assert (U11 : 1.7374621046439 <= exp (0.5525))
    by (apply (exp_double_lower _ _ _ _ U10); lra).
  assert (U12 : 3.01877456507361 <= exp (1.105))
    by (apply (exp_double_lower _ _ _ _ U11); lra).
  assert (U13 : 9.11299987473536 <= exp (2.21))
    by (apply (exp_double_lower _ _ _ _ U12); lra).
  assert (U14 : 83.04676671692668 <= exp (4.42))
    by (apply (exp_double_lower _ _ _ _ U13); lra).
  exact U14.
Qed.

Lemma exp_neg_442_upper : exp (-4.42) <= 0.01204141.
Proof.
  pose proof exp_442_lower as HU.
  replace (-4.42) with (Ropp 4.42) by lra. rewrite exp_Ropp.
  replace 0.01204141 with (/ (/ 0.01204141)) by (field; lra).
  apply Rinv_le_contravar; [|lra].
  apply Rinv_0_lt_compat. lra.
Qed.

Lemma logistic_neg_442_bounds : 0.01185 < logistic (-4.42) < 0.01195.
Proof.
  pose proof exp_neg_442_lower as HL.
  pose proof exp_neg_442_upper as HU.
  unfold logistic. set (y := exp (-4.42)) in *.
  assert (Hd : 0 < 1 + y) by lra.
  assert (Hy : y / (1 + y) * (1 + y) = y) by (field; lra).
  split.
  - apply (Rmult_lt_reg_r (1 + y)); [exact Hd|]. rewrite Hy. lra.
  - apply (Rmult_lt_reg_r (1 + y)); [exact Hd|]. rewrite Hy. lra.
Qed.

(** C5.  At [Hmax = 4], [Zc = 0] with moment ['full'] and compression zone
    ['in'] the logit is exactly [-4.42], which is [-27.06 + 36.08 - 16 + 2.56],
    and the function returns [exp (-4.42) / (1 + exp (-4.42))], a value that
    rounds to 0.0119. *)
Theorem balomenos_scenario_4_0 :
  forall params : ConnectionParameters,
    params.(moment) = "full" -> params.(comp_zone) = "in" ->
    balomenos_g {| Hmax := 4; Zc := 0 |} params = Some (-4.42) /\
    -27.06 + 36.08 - 16 + 2.56 = -4.42 /\
    pile_connection_pf_balomenos {| Hmax := 4; Zc := 0 |} params
    = Ok (exp (-4.42) / (1 + exp (-4.42))) /\
    0.01185 < exp (-4.42) / (1 + exp (-4.42)) < 0.01195.
Proof.
  intros params Hm Hz.
  assert (Hg : balomenos_g {| Hmax := 4; Zc := 0 |} params = Some (-4.42)).
  { rewrite (balomenos_full_in _ params Hm Hz). cbn. f_equal. lra. }
  split; [exact Hg|]. split; [lra|]. split.
  - rewrite balomenos_unfold, Hg. reflexivity.
  - apply logistic_neg_442_bounds.
Qed.

Lemma balomenos_scenario_4_0_witness :
  balomenos_g {| Hmax := 4; Zc := 0 |} wharf = Some (-4.42) /\
  -27.06 + 36.08 - 16 + 2.56 = -4.42 /\
  pile_connection_pf_balomenos {| Hmax := 4; Zc := 0 |} wharf
  = Ok (exp (-4.42) / (1 + exp (-4.42))) /\
  0.01185 < exp (-4.42) / (1 + exp (-4.42)) < 0.01195.
Proof.
  apply (balomenos_scenario_4_0 wharf); reflexivity.
Defined.

(** ** Covariates a branch does not use *)

(** C9.  In [pile_connection_pf_flexural_maniglio], with [corr = 'uniform']
    two parameter records that differ only in the concrete cover [X] give the
    same result, and with [corr = 'pitting'] two records that differ only in
    the pile diameter [dp] give the same result. *)
Theorem flexural_maniglio_unused_covariates :
  forall (IM : IntensityMeasures) (params : ConnectionParameters) (v : R),
    (params.(corr) = "uniform" ->
     pile_connection_pf_flexural_maniglio IM (set_X params v)
     = pile_connection_pf_flexural_maniglio IM params) /\
    (params.(corr) = "pitting" ->
     pile_connection_pf_flexural_maniglio IM (set_dp params v)
     = pile_connection_pf_flexural_maniglio IM params).
Proof.
  intros IM params v. split; intros Hc;
    rewrite !flexural_maniglio_unfold; unfold flexural_maniglio_logit;
    cbn; rewrite Hc; reflexivity.
Qed.

Lemma flexural_maniglio_unused_covariates_witness :
  pile_connection_pf_flexural_maniglio IM_storm (set_X wharf 12)
  = pile_connection_pf_flexural_maniglio IM_storm wharf /\
  pile_connection_pf_flexural_maniglio IM_storm
    (set_dp (set_corr wharf "pitting") 1.2)
  = pile_connection_pf_flexural_maniglio IM_storm (set_corr wharf "pitting").
Proof.
  split.
  - apply (flexural_maniglio_unused_covariates IM_storm wharf 12). reflexivity.
  - apply (flexural_maniglio_unused_covariates IM_storm
             (set_corr wharf "pitting") 1.2). reflexivity.
Defined.

(** ** Monotonicity of the Maniglio uplift model in the dowels *)




(** ** Determinism *)

Lemma same_keys_balomenos_refl (p : ConnectionParameters) :
  same_keys_balomenos p p.
Proof. split; reflexivity. Qed.

Lemma same_keys_uplift_maniglio_refl (p : ConnectionParameters) :
  same_keys_uplift_maniglio p p.
Proof. repeat split; reflexivity. Qed.

Lemma same_keys_flexural_maniglio_refl (p : ConnectionParameters) :
  same_keys_flexural_maniglio p p.
Proof. repeat split; reflexivity. Qed.



(** ** Illegal selectors *)




(** * The functions on dictionaries *)

(** ** Subscripts *)


Lemma getitem_None (d : Dyn.dict) (key : string) :
  Dyn.lookup d key = None -> Dyn.getitem d key = Dyn.Throw (Dyn.KeyError key).
Proof. unfold Dyn.getitem. intros ->. reflexivity. Qed.



(** ** Dictionaries that hold well-typed records *)




(** The dispatcher reaches the dictionaries through the flexural function
    only. *)
Lemma dyn_uplift_pf_legal (IM params : Dyn.dict) (model : Dyn.value) :
  Dyn.legal model "balomenos" "maniglio" = true ->
  Dyn.pile_connection_uplift_pf IM params model
  = Dyn.pile_connection_pf_flexural_maniglio IM params.
Proof.
  unfold Dyn.legal, Dyn.pile_connection_uplift_pf. intros Hm.
  destruct (Dyn.eq_str model "balomenos").
  - destruct (Dyn.pile_connection_pf_flexural_maniglio IM params); reflexivity.
  - simpl in Hm. rewrite Hm.
    destruct (Dyn.pile_connection_pf_flexural_maniglio IM params); reflexivity.
Qed.

Lemma dyn_uplift_pf_illegal (IM params : Dyn.dict) (model : Dyn.value) :
  Dyn.legal model "balomenos" "maniglio" = false ->
  Dyn.pile_connection_uplift_pf IM params model
  = Dyn.Throw (Dyn.NameError (UnboundLocalError "pf")).
Proof.
  unfold Dyn.legal, Dyn.pile_connection_uplift_pf. intros Hm.
  apply orb_false_elim in Hm. destruct Hm as [-> ->]. reflexivity.
Qed.



(** ** Float expressions: a float, or [TypeError] *)

Create HintDb py.

Lemma arith_lit (r : R) : Dyn.arith (Dyn.lit r).
Proof. right. exists r. reflexivity. Qed.

Lemma arith_num (v : Dyn.value) : Dyn.arith (Dyn.num v).
Proof. destruct v as [r|s]; [right; exists r|left]; reflexivity. Qed.

Lemma arith_binop (f : R -> R -> R) (x y : Dyn.outcome R) :
  Dyn.arith x -> Dyn.arith y -> Dyn.arith (Dyn.binop f x y).
Proof.
  intros [->|[a ->]]; [left; reflexivity|].
  intros [->|[b ->]]; [left; reflexivity|].
  right. exists (f a b). reflexivity.
Qed.

Lemma arith_add (x y : Dyn.outcome R) :
  Dyn.arith x -> Dyn.arith y -> Dyn.arith (Dyn.py_add x y).
Proof. apply arith_binop. Qed.

Lemma arith_sub (x y : Dyn.outcome R) :
  Dyn.arith x -> Dyn.arith y -> Dyn.arith (Dyn.py_sub x y).
Proof. apply arith_binop. Qed.

Lemma arith_mul (x y : Dyn.outcome R) :
  Dyn.arith x -> Dyn.arith y -> Dyn.arith (Dyn.py_mul x y).
Proof. apply arith_binop. Qed.

Lemma arith_pow (x : Dyn.outcome R) (n : nat) :
  Dyn.arith x -> Dyn.arith (Dyn.py_pow x n).
Proof.
  intros [->|[a ->]]; [left; reflexivity|].
  right. exists (a ^ n). reflexivity.
Qed.

Lemma fails_num_Str (s : string) : Dyn.fails (Dyn.num (Dyn.Str s)).
Proof. reflexivity. Qed.

Lemma fails_binop_l (f : R -> R -> R) (x y : Dyn.outcome R) :
  Dyn.fails x -> Dyn.fails (Dyn.binop f x y).
Proof. intros ->. reflexivity. Qed.

Lemma fails_binop_r (f : R -> R -> R) (x y : Dyn.outcome R) :
  Dyn.arith x -> Dyn.fails y -> Dyn.fails (Dyn.binop f x y).
Proof. intros [->|[a ->]] ->; reflexivity. Qed.

Lemma fails_add_l (x y : Dyn.outcome R) :
  Dyn.fails x -> Dyn.fails (Dyn.py_add x y).
Proof. apply fails_binop_l. Qed.

Lemma fails_add_r (x y : Dyn.outcome R) :
  Dyn.arith x -> Dyn.fails y -> Dyn.fails (Dyn.py_add x y).
Proof. apply fails_binop_r. Qed.

Lemma fails_sub_l (x y : Dyn.outcome R) :
  Dyn.fails x -> Dyn.fails (Dyn.py_sub x y).
Proof. apply fails_binop_l. Qed.

Lemma fails_sub_r (x y : Dyn.outcome R) :
  Dyn.arith x -> Dyn.fails y -> Dyn.fails (Dyn.py_sub x y).
Proof. apply fails_binop_r. Qed.

Lemma fails_mul_l (x y : Dyn.outcome R) :
  Dyn.fails x -> Dyn.fails (Dyn.py_mul x y).
Proof. apply fails_binop_l. Qed.

Lemma fails_mul_r (x y : Dyn.outcome R) :
  Dyn.arith x -> Dyn.fails y -> Dyn.fails (Dyn.py_mul x y).
Proof. apply fails_binop_r. Qed.

Lemma fails_pow (x : Dyn.outcome R) (n : nat) :
  Dyn.fails x -> Dyn.fails (Dyn.py_pow x n).
Proof. intros ->. reflexivity. Qed.

#[local] Hint Resolve arith_lit arith_num arith_add arith_sub arith_mul
  arith_pow : py.
#[local] Hint Resolve fails_num_Str fails_add_l fails_add_r fails_sub_l
  fails_sub_r fails_mul_l fails_mul_r fails_pow : py.


Lemma assigned_arith (e : Dyn.outcome R) :
  Dyn.arith e ->
  Dyn.assigned e = Dyn.Throw Dyn.TypeError \/
  exists r : R, Dyn.assigned e = Dyn.Return (Some r).
Proof.
  intros [->|[r ->]]; [left|right; exists r]; reflexivity.
Qed.

(** Whatever its operands, a chain of branches binds its local, leaves it
    unbound, or raises [TypeError]. *)
Lemma dyn_balomenos_g_outcome (Hmax Zc moment comp_zone : Dyn.value) :
  Dyn.balomenos_g Hmax Zc moment comp_zone = Dyn.Throw Dyn.TypeError \/
  exists o, Dyn.balomenos_g Hmax Zc moment comp_zone = Dyn.Return o.
Proof.
  unfold Dyn.balomenos_g.
  repeat match goal with
         | |- context [if ?b then _ else _] => destruct b
         end;
    try (right; eexists; reflexivity);
    match goal with
    | |- Dyn.assigned ?e = _ \/ _ =>
        destruct (assigned_arith e) as [->|[r ->]];
        [auto 40 with py|left; reflexivity|right; eexists; reflexivity]
    end.
Qed.

Lemma dyn_uplift_maniglio_logit_outcome (Hmax Zc bh bl bw dse nb pos : Dyn.value) :
  Dyn.uplift_maniglio_logit Hmax Zc bh bl bw dse nb pos
  = Dyn.Throw Dyn.TypeError \/
  exists o, Dyn.uplift_maniglio_logit Hmax Zc bh bl bw dse nb pos
            = Dyn.Return o.
Proof.
  unfold Dyn.uplift_maniglio_logit.
  repeat match goal with
         | |- context [if ?b then _ else _] => destruct b
         end;
    try (right; eexists; reflexivity);
    match goal with
    | |- Dyn.assigned ?e = _ \/ _ =>
        destruct (assigned_arith e) as [->|[r ->]];
        [auto 60 with py|left; reflexivity|right; eexists; reflexivity]
    end.
Qed.

Lemma dyn_flexural_maniglio_logit_outcome
    (Hmax Zc b1 b2 bh bw dse nb dp t X depth corr : Dyn.value) :
  Dyn.flexural_maniglio_logit Hmax Zc b1 b2 bh bw dse nb dp t X depth corr
  = Dyn.Throw Dyn.TypeError \/
  exists o,
    Dyn.flexural_maniglio_logit Hmax Zc b1 b2 bh bw dse nb dp t X depth corr
    = Dyn.Return o.
Proof.
  unfold Dyn.flexural_maniglio_logit.
  repeat match goal with
         | |- context [if ?b then _ else _] => destruct b
         end;
    try (right; eexists; reflexivity);
    match goal with
    | |- Dyn.assigned ?e = _ \/ _ =>
        destruct (assigned_arith e) as [->|[r ->]];
        [auto 80 with py|left; reflexivity|right; eexists; reflexivity]
    end.
Qed.

(** ** The subscripts come first *)

Ltac read_keys H :=
  cbn [Dyn.first_missing] in H;
  repeat match type of H with
         | context [Dyn.lookup ?d ?k] =>
             destruct (Dyn.lookup d k) eqn:?; cbv beta iota in H;
             cbn [Dyn.obind];
             [|first [injection H as <-; reflexivity|discriminate H]]
         end.

Lemma dyn_balomenos_missing (IM params : Dyn.dict) (k : string) :
  Dyn.missing_key Dyn.keys_balomenos IM params = Some k ->
  Dyn.pile_connection_pf_balomenos IM params = Dyn.Throw (Dyn.KeyError k).
Proof.
  unfold Dyn.missing_key, Dyn.keys_IM, Dyn.keys_balomenos,
    Dyn.pile_connection_pf_balomenos, Dyn.getitem.
  intros H. read_keys H. discriminate H.
Qed.

Lemma dyn_balomenos_present (IM params : Dyn.dict) :
  Dyn.missing_key Dyn.keys_balomenos IM params = None ->
  exists Hmax Zc moment comp_zone : Dyn.value,
    (Dyn.lookup IM "Hmax" = Some Hmax /\ Dyn.lookup IM "Zc" = Some Zc /\
     Dyn.lookup params "moment" = Some moment /\
     Dyn.lookup params "comp_zone" = Some comp_zone) /\
    Dyn.pile_connection_pf_balomenos IM params
    = Dyn.obind (Dyn.balomenos_g Hmax Zc moment comp_zone)
        (fun g => Dyn.obind (Dyn.read_local "g" g)
                    (fun g => Dyn.Return (exp g / (1 + exp g)))).
Proof.
  unfold Dyn.missing_key, Dyn.keys_IM, Dyn.keys_balomenos,
    Dyn.pile_connection_pf_balomenos, Dyn.getitem.
  intros H. read_keys H.
  do 4 eexists. split; [repeat split; reflexivity|reflexivity].
Qed.

Lemma dyn_uplift_maniglio_missing (IM params : Dyn.dict) (k : string) :
  Dyn.missing_key Dyn.keys_uplift_maniglio IM params = Some k ->
  Dyn.pile_connection_pf_uplift_maniglio IM params
  = Dyn.Throw (Dyn.KeyError k).
Proof.
  unfold Dyn.missing_key, Dyn.keys_IM, Dyn.keys_uplift_maniglio,
    Dyn.pile_connection_pf_uplift_maniglio, Dyn.getitem.
  intros H. read_keys H. discriminate H.
Qed.

Lemma dyn_uplift_maniglio_present (IM params : Dyn.dict) :
  Dyn.missing_key Dyn.keys_uplift_maniglio IM params = None ->
  exists Hmax Zc bh bl bw dse nb pos : Dyn.value,
    (Dyn.lookup IM "Hmax" = Some Hmax /\ Dyn.lookup IM "Zc" = Some Zc /\
     Dyn.lookup params "bh" = Some bh /\ Dyn.lookup params "bl" = Some bl /\
     Dyn.lookup params "bw" = Some bw /\ Dyn.lookup params "dse" = Some dse /\
     Dyn.lookup params "nb" = Some nb /\ Dyn.lookup params "pos" = Some pos) /\
    Dyn.pile_connection_pf_uplift_maniglio IM params
    = Dyn.obind (Dyn.uplift_maniglio_logit Hmax Zc bh bl bw dse nb pos)
        (fun l => Dyn.obind (Dyn.read_local "logit" l)
                    (fun l => Dyn.Return (exp l / (1 + exp l)))).
Proof.
  unfold Dyn.missing_key, Dyn.keys_IM, Dyn.keys_uplift_maniglio,
    Dyn.pile_connection_pf_uplift_maniglio, Dyn.getitem.
  intros H. read_keys H.
  do 8 eexists. split; [repeat split; reflexivity|reflexivity].
Qed.

Lemma dyn_flexural_maniglio_missing (IM params : Dyn.dict) (k : string) :
  Dyn.missing_key Dyn.keys_flexural_maniglio IM params = Some k ->
  Dyn.pile_connection_pf_flexural_maniglio IM params
  = Dyn.Throw (Dyn.KeyError k).
Proof.
  unfold Dyn.missing_key, Dyn.keys_IM, Dyn.keys_flexural_maniglio,
    Dyn.pile_connection_pf_flexural_maniglio, Dyn.getitem.
  intros H. read_keys H. discriminate H.
Qed.

Lemma dyn_flexural_maniglio_present (IM params : Dyn.dict) :
  Dyn.missing_key Dyn.keys_flexural_maniglio IM params = None ->
  exists Hmax Zc b1 b2 bh bw dse nb dp t X depth corr : Dyn.value,
    (Dyn.lookup IM "Hmax" = Some Hmax /\ Dyn.lookup IM "Zc" = Some Zc /\
     Dyn.lookup params "b1" = Some b1 /\ Dyn.lookup params "b2" = Some b2 /\
     Dyn.lookup params "bh" = Some bh /\ Dyn.lookup params "bw" = Some bw /\
     Dyn.lookup params "dse" = Some dse /\ Dyn.lookup params "nb" = Some nb /\
     Dyn.lookup params "dp" = Some dp /\ Dyn.lookup params "t" = Some t /\
     Dyn.lookup params "X" = Some X /\
     Dyn.lookup params "depth" = Some depth /\
     Dyn.lookup params "corr" = Some corr) /\
    Dyn.pile_connection_pf_flexural_maniglio IM params
    = Dyn.obind
        (Dyn.flexural_maniglio_logit
           Hmax Zc b1 b2 bh bw dse nb dp t X depth corr)
        (fun l => Dyn.obind (Dyn.read_local "logit" l)
                    (fun l => Dyn.Return (exp l / (1 + exp l)))).
Proof.
  unfold Dyn.missing_key, Dyn.keys_IM, Dyn.keys_flexural_maniglio,
    Dyn.pile_connection_pf_flexural_maniglio, Dyn.getitem.
  intros H. read_keys H.
  do 13 eexists. split; [repeat split; reflexivity|reflexivity].
Qed.

(** Past the subscripts no [KeyError] can arise. *)
Lemma transform_not_KeyError (name : string) (c : Dyn.outcome (option R))
    (k : string) :
  c = Dyn.Throw Dyn.TypeError \/ (exists o, c = Dyn.Return o) ->
  Dyn.obind c
    (fun l => Dyn.obind (Dyn.read_local name l)
                (fun l => Dyn.Return (exp l / (1 + exp l))))
  <> Dyn.Throw (Dyn.KeyError k).
Proof.
  intros [->|[[r|] ->]]; cbn; discriminate.
Qed.

(** X2.  Each evaluation function raises [KeyError] exactly when a key it
    reads is missing, and the error names the first such key in the order of
    the reads: the keys of [IM] first, then those of [params].  This holds
    whatever the selectors and the other entries are; in particular the
    flexural function wants both ['dp'] and ['X'] for either corrosion
    type. *)
Theorem KeyError_names_first_missing_key :
  forall (IM params : Dyn.dict) (k : string),
    (Dyn.pile_connection_pf_balomenos IM params = Dyn.Throw (Dyn.KeyError k)
     <-> Dyn.missing_key Dyn.keys_balomenos IM params = Some k) /\
    (Dyn.pile_connection_pf_uplift_maniglio IM params
     = Dyn.Throw (Dyn.KeyError k)
     <-> Dyn.missing_key Dyn.keys_uplift_maniglio IM params = Some k) /\
    (Dyn.pile_connection_pf_flexural_maniglio IM params
     = Dyn.Throw (Dyn.KeyError k)
     <-> Dyn.missing_key Dyn.keys_flexural_maniglio IM params = Some k).
Proof.
  intros IM params k. split; [|split]; split.
  - intros Hf.
    destruct (Dyn.missing_key Dyn.keys_balomenos IM params) as [k'|] eqn:Hk.
    + rewrite (dyn_balomenos_missing _ _ _ Hk) in Hf. congruence.
    + destruct (dyn_balomenos_present _ _ Hk)
        as (Hmax & Zc & moment & comp_zone & _ & Hbody).
      rewrite Hbody in Hf.
      apply transform_not_KeyError in Hf; [contradiction|].
      apply dyn_balomenos_g_outcome.
  - apply dyn_balomenos_missing.
  - intros Hf.
    destruct (Dyn.missing_key Dyn.keys_uplift_maniglio IM params)
      as [k'|] eqn:Hk.
    + rewrite (dyn_uplift_maniglio_missing _ _ _ Hk) in Hf. congruence.
    + destruct (dyn_uplift_maniglio_present _ _ Hk)
        as (Hmax & Zc & bh & bl & bw & dse & nb & pos & _ & Hbody).
      rewrite Hbody in Hf.
      apply transform_not_KeyError in Hf; [contradiction|].
      apply dyn_uplift_maniglio_logit_outcome.
  - apply dyn_uplift_maniglio_missing.
  - intros Hf.
    destruct (Dyn.missing_key Dyn.keys_flexural_maniglio IM params)
      as [k'|] eqn:Hk.
    + rewrite (dyn_flexural_maniglio_missing _ _ _ Hk) in Hf. congruence.
    + destruct (dyn_flexural_maniglio_present _ _ Hk)
        as (Hmax & Zc & b1 & b2 & bh & bw & dse & nb & dp & t & X & depth
            & corr & _ & Hbody).
      rewrite Hbody in Hf.
      apply transform_not_KeyError in Hf; [contradiction|].
      apply dyn_flexural_maniglio_logit_outcome.
  - apply dyn_flexural_maniglio_missing.
Qed.

Lemma KeyError_names_first_missing_key_witness :
  Dyn.pile_connection_pf_balomenos
    (("Hmax", Dyn.Num 4) :: nil)%list
    (("comp_zone", Dyn.Str "in") :: nil)%list
  = Dyn.Throw (Dyn.KeyError "Zc") /\
  Dyn.pile_connection_pf_flexural_maniglio
    (Dyn.dict_of_IM IM_storm)
    (("b1", Dyn.Num 2) :: ("b2", Dyn.Num 6) :: ("bh", Dyn.Num 0.5)
     :: ("bw", Dyn.Num 6) :: ("dse", Dyn.Num 0.025) :: ("nb", Dyn.Num 4)
     :: ("dp", Dyn.Num 0.6) :: ("t", Dyn.Num 25) :: ("depth", Dyn.Num 10)
     :: ("corr", Dyn.Str "uniform") :: nil)%list
  = Dyn.Throw (Dyn.KeyError "X").
Proof.
  split.
  - apply (KeyError_names_first_missing_key
             (("Hmax", Dyn.Num 4) :: nil)%list
             (("comp_zone", Dyn.Str "in") :: nil)%list "Zc").
    reflexivity.
  - apply (KeyError_names_first_missing_key
             (Dyn.dict_of_IM IM_storm)
             (("b1", Dyn.Num 2) :: ("b2", Dyn.Num 6) :: ("bh", Dyn.Num 0.5)
              :: ("bw", Dyn.Num 6) :: ("dse", Dyn.Num 0.025)
              :: ("nb", Dyn.Num 4) :: ("dp", Dyn.Num 0.6)
              :: ("t", Dyn.Num 25) :: ("depth", Dyn.Num 10)
              :: ("corr", Dyn.Str "uniform") :: nil)%list "X").
    reflexivity.
Defined.

(** ** The dispatcher on dictionaries *)

(** X3.  With a model that is neither ['balomenos'] nor ['maniglio'] (a
    number included) the dispatcher raises [UnboundLocalError] for [pf]
    without reading [IM] or [params]: the outcome is the same for all
    dictionaries.  With either legal model it is the flexural function on
    the same dictionaries, errors included; so it raises [KeyError] exactly
    when a key of the flexural function is missing, even under model
    ['balomenos'] with a [params] that holds what the Balomenos function
    reads. *)
Theorem dispatcher_on_dictionaries :
  forall (IM params : Dyn.dict) (model : Dyn.value) (k : string),
    (Dyn.legal model "balomenos" "maniglio" = false ->
     Dyn.pile_connection_uplift_pf IM params model
     = Dyn.Throw (Dyn.NameError (UnboundLocalError "pf"))) /\
    (Dyn.legal model "balomenos" "maniglio" = true ->
     Dyn.pile_connection_uplift_pf IM params model
     = Dyn.pile_connection_pf_flexural_maniglio IM params /\
     (Dyn.pile_connection_uplift_pf IM params model
      = Dyn.Throw (Dyn.KeyError k)
      <-> Dyn.missing_key Dyn.keys_flexural_maniglio IM params = Some k)).
Proof.
  intros IM params model k. split.
  - apply dyn_uplift_pf_illegal.
  - intros Hm. rewrite (dyn_uplift_pf_legal _ _ _ Hm).
    split; [reflexivity|]. split.
    + intros Hf.
      destruct (Dyn.missing_key Dyn.keys_flexural_maniglio IM params)
        as [k'|] eqn:Hk.
      * rewrite (dyn_flexural_maniglio_missing _ _ _ Hk) in Hf. congruence.
      * destruct (dyn_flexural_maniglio_present _ _ Hk)
          as (Hmax & Zc & b1 & b2 & bh & bw & dse & nb & dp & t & X & depth
              & corr & _ & Hbody).
        rewrite Hbody in Hf.
        apply transform_not_KeyError in Hf; [contradiction|].
        apply dyn_flexural_maniglio_logit_outcome.
    + apply dyn_flexural_maniglio_missing.
Qed.

Lemma dispatcher_on_dictionaries_witness :
  Dyn.pile_connection_uplift_pf nil nil (Dyn.Str "Balomenos")
  = Dyn.Throw (Dyn.NameError (UnboundLocalError "pf")) /\
  Dyn.pile_connection_uplift_pf
    (Dyn.dict_of_IM IM_storm)
    (("moment", Dyn.Str "full") :: ("comp_zone", Dyn.Str "in") :: nil)%list
    (Dyn.Str "balomenos")
  = Dyn.Throw (Dyn.KeyError "b1").
Proof.
  split.
  - destruct (dispatcher_on_dictionaries nil nil (Dyn.Str "Balomenos") "b1")
      as (H & _).
    apply H. reflexivity.
  - destruct (dispatcher_on_dictionaries
                (Dyn.dict_of_IM IM_storm)
                (("moment", Dyn.Str "full") :: ("comp_zone", Dyn.Str "in")
                 :: nil)%list
                (Dyn.Str "balomenos") "b1") as (_ & H).
    destruct (H eq_refl) as (_ & Hk). apply Hk. reflexivity.
Defined.

(** ** Selectors before arithmetic *)

Lemma dyn_balomenos_g_illegal (Hmax Zc moment comp_zone : Dyn.value) :
  Dyn.legal moment "full" "partial" && Dyn.legal comp_zone "in" "out" = false ->
  Dyn.balomenos_g Hmax Zc moment comp_zone = Dyn.Return None.
Proof.
  unfold Dyn.legal, Dyn.balomenos_g.
  destruct (Dyn.eq_str moment "full"), (Dyn.eq_str moment "partial"),
    (Dyn.eq_str comp_zone "in"), (Dyn.eq_str comp_zone "out");
    simpl; intros H; try discriminate H; reflexivity.
Qed.

Lemma dyn_uplift_maniglio_logit_illegal (Hmax Zc bh bl bw dse nb pos : Dyn.value) :
  Dyn.legal pos "internal" "seaward" = false ->
  Dyn.uplift_maniglio_logit Hmax Zc bh bl bw dse nb pos = Dyn.Return None.
Proof.
  unfold Dyn.legal, Dyn.uplift_maniglio_logit. intros H.
  apply orb_false_elim in H. destruct H as [-> ->]. reflexivity.
Qed.

Lemma dyn_flexural_maniglio_logit_illegal
    (Hmax Zc b1 b2 bh bw dse nb dp t X depth corr : Dyn.value) :
  Dyn.legal corr "uniform" "pitting" = false ->
  Dyn.flexural_maniglio_logit Hmax Zc b1 b2 bh bw dse nb dp t X depth corr
  = Dyn.Return None.
Proof.
  unfold Dyn.legal, Dyn.flexural_maniglio_logit. intros H.
  apply orb_false_elim in H. destruct H as [-> ->]. reflexivity.
Qed.

(** X4.  When every key is bound and a selector is not one of its legal
    strings (a number is not), the call raises [UnboundLocalError] whatever
    the other entries are: strings in the place of numbers go unnoticed,
    because no arithmetic is done before the local is read. *)
Theorem illegal_selector_precedes_arithmetic :
  forall IM params : Dyn.dict,
    (Dyn.missing_key Dyn.keys_balomenos IM params = None ->
     Dyn.legal_at params "moment" "full" "partial"
     && Dyn.legal_at params "comp_zone" "in" "out" = false ->
     Dyn.pile_connection_pf_balomenos IM params
     = Dyn.Throw (Dyn.NameError (UnboundLocalError "g"))) /\
    (Dyn.missing_key Dyn.keys_uplift_maniglio IM params = None ->
     Dyn.legal_at params "pos" "internal" "seaward" = false ->
     Dyn.pile_connection_pf_uplift_maniglio IM params
     = Dyn.Throw (Dyn.NameError (UnboundLocalError "logit"))) /\
    (Dyn.missing_key Dyn.keys_flexural_maniglio IM params = None ->
     Dyn.legal_at params "corr" "uniform" "pitting" = false ->
     Dyn.pile_connection_pf_flexural_maniglio IM params
     = Dyn.Throw (Dyn.NameError (UnboundLocalError "logit"))).
Proof.
  intros IM params. split; [|split]; intros Hk Hl.
  - destruct (dyn_balomenos_present _ _ Hk)
      as (Hmax & Zc & moment & comp_zone & (_ & _ & Hm & Hz) & ->).
    unfold Dyn.legal_at in Hl. rewrite Hm, Hz in Hl.
    rewrite (dyn_balomenos_g_illegal _ _ _ _ Hl). reflexivity.
  - destruct (dyn_uplift_maniglio_present _ _ Hk)
      as (Hmax & Zc & bh & bl & bw & dse & nb & pos & Hlook & ->).
    destruct Hlook as (_ & _ & _ & _ & _ & _ & _ & Hp).
    unfold Dyn.legal_at in Hl. rewrite Hp in Hl.
    rewrite (dyn_uplift_maniglio_logit_illegal _ _ _ _ _ _ _ _ Hl).
    reflexivity.
  - destruct (dyn_flexural_maniglio_present _ _ Hk)
      as (Hmax & Zc & b1 & b2 & bh & bw & dse & nb & dp & t & X & depth
          & corr & Hlook & ->).
    destruct Hlook as (_ & _ & _ & _ & _ & _ & _ & _ & _ & _ & _ & _ & Hc).
    unfold Dyn.legal_at in Hl. rewrite Hc in Hl.
    rewrite (dyn_flexural_maniglio_logit_illegal
               _ _ _ _ _ _ _ _ _ _ _ _ _ Hl).
    reflexivity.
Qed.

Lemma illegal_selector_precedes_arithmetic_witness :
  Dyn.pile_connection_pf_balomenos
    (("Hmax", Dyn.Str "high") :: ("Zc", Dyn.Num 0) :: nil)%list
    (("moment", Dyn.Num 1) :: ("comp_zone", Dyn.Str "in") :: nil)%list
  = Dyn.Throw (Dyn.NameError (UnboundLocalError "g")) /\
  Dyn.pile_connection_pf_uplift_maniglio
    (("Hmax", Dyn.Str "high") :: ("Zc", Dyn.Num 0) :: nil)%list
    (("bh", Dyn.Str "thick") :: ("bl", Dyn.Num 6) :: ("bw", Dyn.Num 6)
     :: ("dse", Dyn.Num 0.025) :: ("nb", Dyn.Num 4)
     :: ("pos", Dyn.Str "landward") :: nil)%list
  = Dyn.Throw (Dyn.NameError (UnboundLocalError "logit")).
Proof.
  split.
  - destruct (illegal_selector_precedes_arithmetic
                (("Hmax", Dyn.Str "high") :: ("Zc", Dyn.Num 0) :: nil)%list
                (("moment", Dyn.Num 1) :: ("comp_zone", Dyn.Str "in")
                 :: nil)%list) as (H & _).
    apply H; reflexivity.
  - destruct (illegal_selector_precedes_arithmetic
                (("Hmax", Dyn.Str "high") :: ("Zc", Dyn.Num 0) :: nil)%list
                (("bh", Dyn.Str "thick") :: ("bl", Dyn.Num 6)
                 :: ("bw", Dyn.Num 6) :: ("dse", Dyn.Num 0.025)
                 :: ("nb", Dyn.Num 4) :: ("pos", Dyn.Str "landward")
                 :: nil)%list) as (_ & H & _).
    apply H; reflexivity.
Defined.

(** ** Strings in the place of numbers *)














(** * Shape of the regression surfaces *)


Lemma logistic_le (x y : R) : x <= y -> logistic x <= logistic y.
Proof.
  intros [Hlt| ->]; [left; apply logistic_increasing; exact Hlt|right; reflexivity].
Qed.

(** ** The Balomenos model in the wave height *)

(** The slope of a cubic between two points, bounded below by completing
    two squares. *)
Ltac complete_squares H1 H2 m :=
  pose proof (Rle_0_sqr (H1 - H2));
  pose proof (Rle_0_sqr (H1 + H2 - m));
  unfold Rsqr in *.




(** ** The Balomenos model in the clearance *)




(** ** The Maniglio models in the deck thickness and in time *)







(** ** The Balomenos model over its documented domain *)

Lemma exp_neg_246_lower : 0.0834133942 <= exp (-2.46).
Proof.
  assert (L0 : 0.98078125 <= exp (-0.01921875)).
  { pose proof (exp_ineq1_le (-0.01921875)). lra. }
  assert (L1 : 0.9619318603 <= exp (-0.0384375))
    by (apply (exp_double_lower _ _ _ _ L0); lra).
  assert (L2 : 0.9253129038 <= exp (-0.076875))
    by (apply (exp_double_lower _ _ _ _ L1); lra).
  assert (L3 : 0.8562039699 <= exp (-0.15375))
    by (apply (exp_double_lower _ _ _ _ L2); lra).
  assert (L4 : 0.733085238 <= exp (-0.3075))
    by (apply (exp_double_lower _ _ _ _ L3); lra).
  assert (L5 : 0.5374139661 <= exp (-0.615))
    by (apply (exp_double_lower _ _ _ _ L4); lra).
  assert (L6 : 0.2888137709 <= exp (-1.23))
    by (apply (exp_double_lower _ _ _ _ L5); lra).
  assert (L7 : 0.0834133942 <= exp (-2.46))
    by (apply (exp_double_lower _ _ _ _ L6); lra).
  exact L7.
Qed.

Lemma logistic_246_upper : logistic 2.46 < 0.93.
Proof.
  pose proof exp_neg_246_lower as HL.
  pose proof (exp_pos 2.46) as Hp.
  assert (He : exp 2.46 * exp (-2.46) = 1).
  { rewrite <- exp_plus. replace (2.46 + -2.46) with 0 by lra. apply exp_0. }
  assert (Hu : exp 2.46 <= 12).
  { destruct (Rle_or_lt (exp 2.46) 12) as [Hu|Hu]; [exact Hu|].
    assert (12 * 0.0834133942 < exp 2.46 * exp (-2.46)).
    { apply Rle_lt_trans with (12 * exp (-2.46)).
      - apply Rmult_le_compat_l; lra.
      - apply Rmult_lt_compat_r; [apply exp_pos|exact Hu]. }
    lra. }
  unfold logistic. set (y := exp 2.46) in *.
  assert (Hd : 0 < 1 + y) by lra.
  assert (Hy : y / (1 + y) * (1 + y) = y) by (field; lra).
  apply (Rmult_lt_reg_r (1 + y)); [exact Hd|]. rewrite Hy. lra.
Qed.

Lemma balomenos_full_out (IM : IntensityMeasures) (params : ConnectionParameters) :
  params.(moment) = "full" -> params.(comp_zone) = "out" ->
  balomenos_g IM params
  = Some (-26.89 + 11.35*IM.(Hmax) - 2.50*IM.(Zc) + 0.30*IM.(Hmax)*IM.(Zc)
          - 1.62*IM.(Hmax)^2 + 0.09*IM.(Hmax)^3).
Proof.
  intros Hm Hz. unfold balomenos_g. rewrite Hm, Hz. reflexivity.
Qed.

(** X11.  Over the documented domain, [Hmax] in [0, 8] and [Zc] in [-2, 2],
    the probability of a full moment connection lies between its values at
    the corners [(0, 2)] and [(8, -2)]: between [logistic (-30.82)] and
    [logistic 2.46] for compression zone ['in'], so always below 0.93, and
    between [logistic (-31.89)] and [logistic 6.51] for ['out']. *)
Theorem balomenos_full_over_documented_domain :
  forall (params : ConnectionParameters) (H Z : R),
    params.(moment) = "full" ->
    0 <= H <= 8 -> -2 <= Z <= 2 ->
    (params.(comp_zone) = "in" ->
     exists pf : R,
       pile_connection_pf_balomenos {| Hmax := H; Zc := Z |} params = Ok pf /\
       logistic (-30.82) <= pf <= logistic 2.46 /\ pf < 0.93) /\
    (params.(comp_zone) = "out" ->
     exists pf : R,
       pile_connection_pf_balomenos {| Hmax := H; Zc := Z |} params = Ok pf /\
       logistic (-31.89) <= pf <= logistic 6.51).
Proof.
  intros params H Z Hm [H0 H8] [Z0 Z2].
  assert (Hsq : 0 <= (H - 8) * (H - 8)) by apply Rle_0_sqr.
  split; intros Hz; rewrite balomenos_unfold.
  - rewrite (balomenos_full_in _ params Hm Hz). cbn [Hmax Zc].
    eexists. split; [reflexivity|].
    assert (Hup : -27.06 + 9.02*H - 1.88*Z + 0.18*H*Z - H^2 + 0.04*H^3
                  <= 2.46).
    { assert (0 <= (Z + 2) * (1.88 - 0.18*H))
        by (apply Rmult_le_pos; lra).
      assert (0 <= (8 - H) * (8.66 - (H + 8) + 0.04*(H*H + H*8 + 8*8))).
      { apply Rmult_le_pos; [lra|]. complete_squares H 8 (50/3). lra. }
      lra. }
    assert (Hlo : -30.82
                  <= -27.06 + 9.02*H - 1.88*Z + 0.18*H*Z - H^2 + 0.04*H^3).
    { assert (0 <= (2 - Z) * (1.88 - 0.18*H))
        by (apply Rmult_le_pos; lra).
      assert (0 <= H * (9.38 - H + 0.04*(H*H))).
      { apply Rmult_le_pos; [lra|]. complete_squares H 0 (50/3). lra. }
      lra. }
    split; [split; apply logistic_le; assumption|].
    apply Rle_lt_trans with (logistic 2.46);
      [apply logistic_le; exact Hup|apply logistic_246_upper].
  - rewrite (balomenos_full_out _ params Hm Hz). cbn [Hmax Zc].
    eexists. split; [reflexivity|].
    split; apply logistic_le.
    + assert (0 <= (2 - Z) * (2.50 - 0.30*H))
        by (apply Rmult_le_pos; lra).
      assert (0 <= H * (11.95 - 1.62*H + 0.09*(H*H))).
      { apply Rmult_le_pos; [lra|]. complete_squares H 0 12. lra. }
      lra.
    + assert (0 <= (Z + 2) * (2.50 - 0.30*H))
        by (apply Rmult_le_pos; lra).
      assert (0 <= (8 - H) * (10.75 - 1.62*(H + 8) + 0.09*(H*H + H*8 + 8*8))).
      { apply Rmult_le_pos; [lra|]. complete_squares H 8 12. lra. }
      lra.
Qed.

Lemma balomenos_full_over_documented_domain_witness :
  (exists pf : R,
      pile_connection_pf_balomenos {| Hmax := 8; Zc := -2 |} wharf = Ok pf /\
      logistic (-30.82) <= pf <= logistic 2.46 /\ pf < 0.93) /\
  (exists pf : R,
      pile_connection_pf_balomenos {| Hmax := 3; Zc := 1 |}
        (set_comp_zone wharf "out") = Ok pf /\
      logistic (-31.89) <= pf <= logistic 6.51).
Proof.
  split.
  - destruct (balomenos_full_over_documented_domain wharf 8 (-2))
      as (H & _); [reflexivity|lra|lra|].
    apply H. reflexivity.
  - destruct (balomenos_full_over_documented_domain
                (set_comp_zone wharf "out") 3 1)
      as (_ & H); [reflexivity|lra|lra|].
    apply H. reflexivity.
Defined.
